(** * The checkpointing exercise notebook, embedded and verified

    Source: the code cells of
    [3_advanced/.ipynb_checkpoints/7_Checkpointing Exercise-Copy1-checkpoint.ipynb].

    The notebook is glue code over two external collaborators: the Spark
    session ([spark], [sc]) and the Hadoop file system reached through the
    JVM gateway.  Each interaction with them is an effect; the three
    functions of the notebook are embedded as programs over these effects
    ([Prog]), and a program is run against a handler that gives the
    collaborators' behaviour and holds their state.  The arguments [sc] and
    [spark] of the Python functions are the handles of these collaborators:
    in the embedding they are the handler and its state, on which every call
    is made.

    Statements about which calls the notebook makes, in which order and
    with which arguments are proved for every handler; statements about
    what the engine answers are proved for the reference engine
    [spark_engine].

    Names: the specification calls [create_dataframe_ex]
    [build_sample_dataset], [sc.setCheckpointDir]
    [configure_checkpoint_location], [df.checkpoint] [checkpoint_dataset],
    [df.rdd.isCheckpointed] and [df.rdd.getCheckpointFile] [is_checkpointed]
    and [checkpoint_file], [delete_hdfs_directory] [delete_location], and
    the column [id] identifier. *)

From Stdlib Require Import ZArith Ascii String List.
From stdpp Require Import gmap strings list fin_maps pretty.

Local Open Scope Z_scope.
Local Open Scope string_scope.

(** ** Data *)

(** A Python tuple [(id, name, age)] of the [data] literal. *)
Definition Row : Type := Z * string * Z.

(** A DataFrame: its schema, its rows in order, and the file its RDD was
    checkpointed to, if any ([df.rdd.getCheckpointFile()]). *)
Record DataFrame : Type := mkDataFrame {
  columns : list string;
  rows : list Row;
  checkpointFile : option string
}.

(** ** Effects: the calls the notebook makes on its collaborators

    [spark.createDataFrame(data, headers)], [sc.setCheckpointDir(dir)],
    [df.checkpoint(eager)], [df.rdd.isCheckpointed()],
    [df.rdd.getCheckpointFile()], [df.show(n, truncate)],
    [FileSystem.get(Configuration())], [fs.exists(Path(p))],
    [fs.delete(Path(p), recursive)] and Python's [print]. *)

Inductive Call : Type -> Type :=
| createDataFrame (data : list Row) (schema : list string) : Call DataFrame
| setCheckpointDir (dirName : string) : Call unit
| checkpoint (df : DataFrame) (eager : bool) : Call DataFrame
| rdd_isCheckpointed (df : DataFrame) : Call bool
| rdd_getCheckpointFile (df : DataFrame) : Call (option string)
| show (df : DataFrame) (n : Z) (truncate : bool) : Call unit
| FileSystem_get : Call unit
| fs_exists (path : string) : Call bool
| fs_delete (path : string) (recursive : bool) : Call bool
| print (line : string) : Call unit.

(** Programs: a result, or a call followed by the rest of the program. *)
Inductive Prog (A : Type) : Type :=
| Ret (a : A)
| Vis {X : Type} (c : Call X) (k : X -> Prog A).

Arguments Ret {A} a.
Arguments Vis {A X} c k.

Fixpoint bind {A B : Type} (p : Prog A) (f : A -> Prog B) : Prog B :=
  match p with
  | Ret a => f a
  | Vis c k => Vis c (fun x => bind (k x) f)
  end.

Definition call {X : Type} (c : Call X) : Prog X := Vis c Ret.

Declare Scope prog_scope.
Delimit Scope prog_scope with prog.
Notation "x <- p ;; q" := (bind p (fun x => q))
  (at level 100, p at next level, right associativity) : prog_scope.
Notation "p ;; q" := (bind p (fun _ => q))
  (at level 100, right associativity) : prog_scope.

(** ** Running a program

    A call either returns a value or raises; the notebook has no
    [try]/[except], so a raised exception ends the run. *)

Inductive Outcome (E A : Type) : Type :=
| Returned (a : A)
| Raised (e : E).

Arguments Returned {E A} a.
Arguments Raised {E A} e.

(** A call as it appears in a trace: with what it answered. *)
Inductive Event (E : Type) : Type :=
| Ev {X : Type} (c : Call X) (r : Outcome E X).

Arguments Ev {E X} c r.

Definition Handler (W E : Type) : Type :=
  forall X : Type, Call X -> W -> Outcome E X * W.

(** [run h p w] gives the outcome, the final state of the collaborators and
    the calls made, oldest first. *)
Fixpoint run {W E A : Type} (h : Handler W E) (p : Prog A) (w : W)
  : Outcome E A * W * list (Event E) :=
  match p with
  | Ret a => (Returned a, w, [])
  | Vis c k =>
      match h _ c w with
      | (Returned x, w') =>
          let '(o, w'', tr) := run h (k x) w' in (o, w'', Ev c (Returned x) :: tr)
      | (Raised e, w') => (Raised e, w', [Ev c (Raised e)])
      end
  end.

Definition outcome {W E A : Type} (r : Outcome E A * W * list (Event E)) : Outcome E A :=
  fst (fst r).
Definition final {W E A : Type} (r : Outcome E A * W * list (Event E)) : W :=
  snd (fst r).
Definition trace {W E A : Type} (r : Outcome E A * W * list (Event E)) : list (Event E) :=
  snd r.

(** ** Python's [str.format] and [str], as far as the notebook uses them *)

(** ["...{0}...".format(arg)]: every [{0}] of the template is replaced. *)
Fixpoint format (template arg : string) : string :=
  match template with
  | EmptyString => EmptyString
  | String "{"%char (String "0"%char (String "}"%char rest)) =>
      arg +:+ format rest arg
  | String c rest => String c (format rest arg)
  end.

Arguments format : simpl never.

Definition str_bool (b : bool) : string := if b then "True" else "False".

Definition str_optional (o : option string) : string :=
  match o with
  | Some s => s
  | None => "None"
  end.

(** ** The notebook *)

Section Notebook.

Local Open Scope prog_scope.

(** The global of the cell before the functions; the notebook sets it to
    the empty string (see [location_prefix] below). *)
Variable location_prefix : string.

(** The locals [headers] and [data] of [create_dataframe_ex]. *)
Definition headers : list string := ["id"; "name"; "age"].

Definition data : list Row :=
  [(1, "Steve", 26); (2, "Yolanda", 23); (3, "James", 21); (4, "Joe", 19);
   (5, "Ryan", 20); (6, "Connor", 26); (7, "Alan", 31); (8, "John", 32);
   (9, "Samantha", 28); (10, "Alex", 30); (11, "Dennis", 29); (12, "Michael", 34);
   (13, "Matthew", 27); (14, "Jim", 29); (15, "Sophia", 25);
   (16, "Wendy", 29); (17, "Stephan", 32); (18, "Claude", 22);
   (19, "Brendan", 24); (20, "Regina", 37); (21, "Stanley", 21);
   (22, "Sharron", 32); (23, "James", 21)].

(** [def create_dataframe_ex(sc, spark)] *)
Definition create_dataframe_ex : Prog DataFrame :=
  df <- call (createDataFrame data headers) ;;
  Ret df.

(** [def delete_hdfs_directory(sc, spark, input_ckpt_path)]; the result of
    [fs.delete] is dropped. *)
Definition delete_hdfs_directory (input_ckpt_path : string) : Prog unit :=
  call FileSystem_get ;;
  found <- call (fs_exists input_ckpt_path) ;;
  if found : bool then
    call (print (format "Deleting Checkpoint location=({0}) - STARTED " input_ckpt_path)) ;;
    call (fs_delete input_ckpt_path true) ;;
    call (print (format "Deleting Checkpoint location=({0}) - DONE " input_ckpt_path))
  else Ret tt.

(** [checkpoint_dir = location_prefix + "my_local_check_point"], the local
    of [create_checkpoint_ex]. *)
Definition checkpoint_dir : string := location_prefix +:+ "my_local_check_point".

(** [def create_checkpoint_ex(sc, spark)] *)
Definition create_checkpoint_ex : Prog unit :=
  df <- create_dataframe_ex ;;
  call (print "Creating checkpoint - example") ;;
  call (print (format "Set checkpoint directory={0}" checkpoint_dir)) ;;
  call (setCheckpointDir checkpoint_dir) ;;
  df <- call (checkpoint df true) ;;
  is_ckpt <- call (rdd_isCheckpointed df) ;;
  call (print (format "Check whether dataframe is checkpointed:{0}" (str_bool is_ckpt))) ;;
  file <- call (rdd_getCheckpointFile df) ;;
  call (print (format "Get the name of the file to which this RDD was checkpointed:{0}"
                      (str_optional file))) ;;
  call (print "Do all operations with dataframe...") ;;
  call (show df 25 false) ;;
  call (print "Deleting the checkpoint") ;;
  delete_hdfs_directory checkpoint_dir.

End Notebook.

(** [location_prefix = ""] (the ["/tmp/"] alternative is commented out). *)
Definition location_prefix : string := "".

(** The last code cell: [create_checkpoint_ex(sc, spark)]. *)
Definition notebook_main : Prog unit := create_checkpoint_ex location_prefix.

(** ** The reference engine

    The Spark session and the Hadoop file system are not part of the
    notebook.  Their behaviour is taken from the specification of the
    workflow's operations and put into one state, [World]. *)

(** Modelled from the spec: what durable storage holds at a path, a
    directory or the full materialization of a dataset. *)
Inductive Node : Type :=
| Directory
| CheckpointData (schema : list string) (content : list Row).

(** What the notebook shows: a printed line, or a table from [show]. *)
Inductive Output : Type :=
| Line (text : string)
| Table (schema : list string) (content : list Row).

(** Modelled from the spec: the errors the engine reports. Configuration:
    no checkpoint location, or one that is not writable; deletion: storage
    rejects the delete. *)
Inductive EngineError : Type :=
| CheckpointDirNotSet
| NotWritable (path : string)
| DeleteRejected (path : string)
| DirectoryNotEmpty (path : string).

(** Modelled from the spec: the state of the session and of durable
    storage, absent from the notebook. *)
Record World : Type := mkWorld {
  storage : gmap string Node;      (* durable storage, by path *)
  unwritable : gset string;        (* locations the process may not write *)
  undeletable : gset string;       (* locations storage refuses to delete *)
  checkpointDir : option string;   (* last location configured on the session *)
  rdd_counter : nat;               (* checkpoints written so far *)
  stdout : list Output
}.

Definition with_storage (m : gmap string Node) (w : World) : World :=
  mkWorld m (unwritable w) (undeletable w) (checkpointDir w) (rdd_counter w) (stdout w).

Definition with_output (o : Output) (w : World) : World :=
  mkWorld (storage w) (unwritable w) (undeletable w) (checkpointDir w) (rdd_counter w)
          (stdout w ++ [o]).

(** Modelled from the spec: the directory tree at a location.
    [under dir path]: [path] is [dir] itself or lies in the tree below it. *)
Definition under (dir path : string) : bool :=
  String.eqb path dir || String.prefix (dir +:+ "/") path.

(** Modelled from the spec: the existence check of the storage client. *)
Definition location_exists (path : string) (w : World) : bool :=
  bool_decide (is_Some (storage w !! path)).

(** Modelled from the spec: the location is writable by the process. *)
Definition writable (path : string) (w : World) : bool :=
  negb (bool_decide (path ∈ unwritable w)).

(** Modelled from the spec: storage does not reject a delete of the
    location. *)
Definition deletable (path : string) (w : World) : bool :=
  negb (bool_decide (path ∈ undeletable w)).

(** Something is stored below the location. *)
Definition has_children (path : string) (w : World) : bool :=
  negb (bool_decide (map_Forall (fun k (_ : Node) => under path k = true -> k = path)
                                (storage w))).

(** Modelled from the spec: what a checkpoint file holds, read back from
    storage. *)
Definition read_checkpoint (file : string) (w : World) : option (list string * list Row) :=
  match storage w !! file with
  | Some (CheckpointData schema content) => Some (schema, content)
  | _ => None
  end.

Section Engine.

(** The name the engine gives the file of its n-th checkpoint inside the
    checkpoint directory; the specification leaves it to the engine. *)
Variable part_name : nat -> string.

(** Modelled from the spec: the engine's dataset construction, absent from
    the notebook.  It returns the dataset of the given literal rows and
    schema, not checkpointed, and has no failure mode. *)
Definition engine_createDataFrame (data : list Row) (schema : list string) (w : World)
  : Outcome EngineError DataFrame * World :=
  (Returned (mkDataFrame schema data None), w).

(** Modelled from the spec: [configure_checkpoint_location], absent from
    the notebook.  It registers the path as the location of future
    checkpoints, in the engine-wide configuration. *)
Definition engine_setCheckpointDir (dirName : string) (w : World)
  : Outcome EngineError unit * World :=
  (Returned tt,
   mkWorld (storage w) (unwritable w) (undeletable w) (Some dirName) (rdd_counter w)
           (stdout w)).

(** Modelled from the spec: [checkpoint_dataset], absent from the
    notebook.  It fails if no location was configured or the location is
    not writable; otherwise it writes the dataset's full contents to a file
    in the configured location and returns a new dataset reference that
    names that file.  The specification describes the synchronous
    operation only, which is the one the notebook requests
    ([eager = True]); the flag is not looked at. *)
Definition engine_checkpoint (df : DataFrame) (eager : bool) (w : World)
  : Outcome EngineError DataFrame * World :=
  match checkpointDir w with
  | None => (Raised CheckpointDirNotSet, w)
  | Some dir =>
      if writable dir w then
        let file := dir +:+ "/" +:+ part_name (rdd_counter w) in
        (Returned (mkDataFrame (columns df) (rows df) (Some file)),
         mkWorld (<[file := CheckpointData (columns df) (rows df)]>
                    (<[dir := Directory]> (storage w)))
                 (unwritable w) (undeletable w) (checkpointDir w)
                 (S (rdd_counter w)) (stdout w))
      else (Raised (NotWritable dir), w)
  end.

(** Modelled from the spec: the accessors [is_checkpointed] and
    [checkpoint_file], absent from the notebook.  They have no side effect
    and answer false and nothing for a dataset that was not checkpointed. *)
Definition engine_isCheckpointed (df : DataFrame) (w : World)
  : Outcome EngineError bool * World :=
  (Returned (match checkpointFile df with Some _ => true | None => false end), w).

(** Modelled from the spec: [checkpoint_file], see [engine_isCheckpointed]. *)
Definition engine_getCheckpointFile (df : DataFrame) (w : World)
  : Outcome EngineError (option string) * World :=
  (Returned (checkpointFile df), w).

(** Modelled from the spec: the display of a dataset, absent from the
    notebook: the first [n] rows, in order. *)
Definition engine_show (df : DataFrame) (n : Z) (truncate : bool) (w : World)
  : Outcome EngineError unit * World :=
  (Returned tt, with_output (Table (columns df) (take (Z.to_nat n) (rows df))) w).

(** Modelled from the spec: the durable storage client ([exists] and
    [delete(path, recursive)]), absent from the notebook.  A recursive
    delete removes the directory tree at the path; it answers false when
    nothing is there, and raises when storage rejects the delete.  The
    specification is silent on a non-recursive delete, which the notebook
    never asks for: here it refuses a location with something below it. *)
Definition engine_exists (path : string) (w : World)
  : Outcome EngineError bool * World :=
  (Returned (location_exists path w), w).

(** Modelled from the spec: [delete(path, recursive)], see [engine_exists]. *)
Definition engine_delete (path : string) (recursive : bool) (w : World)
  : Outcome EngineError bool * World :=
  if location_exists path w then
    if deletable path w then
      if negb recursive && has_children path w
      then (Raised (DirectoryNotEmpty path), w)
      else (Returned true,
            with_storage (filter (fun kv => under path kv.1 = false) (storage w)) w)
    else (Raised (DeleteRejected path), w)
  else (Returned false, w).

(** The reference engine: every call of the notebook answered by the
    operations above; Python's [print] adds a line to the output. *)
Definition spark_engine : Handler World EngineError :=
  fun X c =>
    match c in Call X return World -> Outcome EngineError X * World with
    | createDataFrame d s => engine_createDataFrame d s
    | setCheckpointDir dir => engine_setCheckpointDir dir
    | checkpoint df eager => engine_checkpoint df eager
    | rdd_isCheckpointed df => engine_isCheckpointed df
    | rdd_getCheckpointFile df => engine_getCheckpointFile df
    | show df n t => engine_show df n t
    | FileSystem_get => fun w => (Returned tt, w)
    | fs_exists p => engine_exists p
    | fs_delete p r => engine_delete p r
    | print line => fun w => (Returned tt, with_output (Line line) w)
    end.

End Engine.

(** A session that has done nothing yet, over empty storage. *)
Definition fresh_world : World := mkWorld ∅ ∅ ∅ None 0 [].

(** One way for the engine to name its checkpoint files. *)
Definition rdd_name (n : nat) : string := "rdd-" +:+ pretty n.

(** A session configured with the location [ckpt_test]. *)
Definition configured_world : World := mkWorld ∅ ∅ ∅ (Some "ckpt_test") 0 [].

(** Storage that holds a checkpoint of the sample under [ckpt_test]. *)
Definition stored_world : World :=
  mkWorld (<["ckpt_test/rdd-0" := CheckpointData headers data]>
             (<["ckpt_test" := Directory]> ∅))
          ∅ ∅ (Some "ckpt_test") 1 [].

(** The notebook's location, not writable, and writable but not deletable. *)
Definition readonly_world : World :=
  mkWorld ∅ {[ "my_local_check_point" ]} ∅ None 0 [].

Definition locked_world : World :=
  mkWorld ∅ ∅ {[ "my_local_check_point" ]} None 0 [].

(** Collaborators that never raise, with a file system that finds every
    location and whose delete answers false. *)
Definition answering_false : Handler unit unit :=
  fun X c w =>
    match c in Call X return Outcome unit X * unit with
    | createDataFrame d s => (Returned (mkDataFrame s d None), w)
    | setCheckpointDir _ => (Returned tt, w)
    | checkpoint df _ => (Returned df, w)
    | rdd_isCheckpointed _ => (Returned false, w)
    | rdd_getCheckpointFile _ => (Returned None, w)
    | show _ _ _ => (Returned tt, w)
    | FileSystem_get => (Returned tt, w)
    | fs_exists _ => (Returned true, w)
    | fs_delete _ _ => (Returned false, w)
    | print _ => (Returned tt, w)
    end.

(** The outcome is the error of a missing checkpoint location. *)
Definition dir_not_set {A : Type} (o : Outcome EngineError A) : bool :=
  match o with
  | Raised CheckpointDirNotSet => true
  | _ => false
  end.

(** The transcript of a run of the workflow on the reference engine in which
    nothing fails: the calls and their answers. *)
Definition successful_trace (part_name : nat -> string) (prefix : string) (w : World)
  : list (Event EngineError) :=
  let dir := checkpoint_dir prefix in
  let file := dir +:+ "/" +:+ part_name (rdd_counter w) in
  let df0 := mkDataFrame headers data None in
  let df := mkDataFrame headers data (Some file) in
  [ Ev (createDataFrame data headers) (Returned df0);
    Ev (print "Creating checkpoint - example") (Returned tt);
    Ev (print (format "Set checkpoint directory={0}" dir)) (Returned tt);
    Ev (setCheckpointDir dir) (Returned tt);
    Ev (checkpoint df0 true) (Returned df);
    Ev (rdd_isCheckpointed df) (Returned true);
    Ev (print (format "Check whether dataframe is checkpointed:{0}" "True")) (Returned tt);
    Ev (rdd_getCheckpointFile df) (Returned (Some file));
    Ev (print (format "Get the name of the file to which this RDD was checkpointed:{0}"
                      file)) (Returned tt);
    Ev (print "Do all operations with dataframe...") (Returned tt);
    Ev (show df 25 false) (Returned tt);
    Ev (print "Deleting the checkpoint") (Returned tt);
    Ev FileSystem_get (Returned tt);
    Ev (fs_exists dir) (Returned true);
    Ev (print (format "Deleting Checkpoint location=({0}) - STARTED " dir)) (Returned tt);
    Ev (fs_delete dir true) (Returned true);
    Ev (print (format "Deleting Checkpoint location=({0}) - DONE " dir)) (Returned tt) ].

(** ** Properties of traces *)

(** The calls of a trace, without their answers. *)
Inductive AnyCall : Type :=
| Any {X : Type} (c : Call X).

(** The life of the workflow's dataset. *)
Inductive DatasetState : Type :=
| Unmaterialized
| Checkpointed
| LocationDeleted.

Definition rank (s : DatasetState) : nat :=
  match s with
  | Unmaterialized => 0
  | Checkpointed => 1
  | LocationDeleted => 2
  end.

Section TraceProperties.

Context {E : Type}.

Definition returned {X : Type} (r : Outcome E X) : bool :=
  match r with
  | Returned _ => true
  | Raised _ => false
  end.

(** A call to the file system's delete asks for a recursive delete. *)
Definition recursive_delete (e : Event E) : bool :=
  match e with
  | Ev c _ =>
      match c with
      | fs_delete _ recursive => recursive
      | _ => true
      end
  end.

(** Every path handed to the file system ([exists], [delete]) is the one
    last handed to [setCheckpointDir]. *)
Fixpoint deletes_configured_path (configured : option string) (tr : list (Event E))
  : bool :=
  match tr with
  | [] => true
  | Ev c _ :: tr' =>
      match c with
      | setCheckpointDir d => deletes_configured_path (Some d) tr'
      | fs_exists p | fs_delete p _ =>
          bool_decide (configured = Some p) && deletes_configured_path configured tr'
      | _ => deletes_configured_path configured tr'
      end
  end.

(** Every [checkpoint] call comes after a [setCheckpointDir] that returned. *)
Fixpoint configured_before_checkpoint (configured : bool) (tr : list (Event E))
  : bool :=
  match tr with
  | [] => true
  | Ev c r :: tr' =>
      match c with
      | setCheckpointDir _ => configured_before_checkpoint (configured || returned r) tr'
      | checkpoint _ _ => configured && configured_before_checkpoint configured tr'
      | _ => configured_before_checkpoint configured tr'
      end
  end.

(** No exception is caught: every call but the last returned; a call that
    raised is the last one made and its exception is the outcome of the
    run; a run whose calls all returned returns. *)
Fixpoint uncaught {A : Type} (o : Outcome E A) (tr : list (Event E)) : Prop :=
  match tr with
  | [] => returned o = true
  | Ev _ r :: tr' =>
      match r with
      | Returned _ => uncaught o tr'
      | Raised e => tr' = [] /\ o = Raised e
      end
  end.

(** The file system answered true ([exists]: the location is there;
    [delete]: it was deleted). *)
Definition answered_true {X : Type} (c : Call X) : Outcome E X -> bool :=
  match c in Call X return Outcome E X -> bool with
  | fs_exists _ => fun r => match r with Returned b => b | Raised _ => false end
  | fs_delete _ _ => fun r => match r with Returned b => b | Raised _ => false end
  | _ => fun _ => false
  end.

(** Every [delete] comes after an [exists] that answered true. *)
Fixpoint delete_after_exists (found : bool) (tr : list (Event E)) : bool :=
  match tr with
  | [] => true
  | Ev c r :: tr' =>
      match c with
      | fs_exists _ => delete_after_exists (answered_true c r) tr'
      | fs_delete _ _ => found && delete_after_exists found tr'
      | _ => delete_after_exists found tr'
      end
  end.

(** One call moves the dataset along; [None] is a call out of order: a
    dataset built or checkpointed once the dataset is checkpointed, or a
    delete while it is not. *)
Definition step (s : DatasetState) (e : Event E) : option DatasetState :=
  match e with
  | Ev c r =>
      match c with
      | createDataFrame _ _ =>
          match s with
          | Unmaterialized => Some Unmaterialized
          | _ => None
          end
      | checkpoint _ _ =>
          match s with
          | Unmaterialized => Some (if returned r then Checkpointed else Unmaterialized)
          | _ => None
          end
      | fs_delete _ _ =>
          match s with
          | Unmaterialized => None
          | Checkpointed => Some (if answered_true c r then LocationDeleted else Checkpointed)
          | LocationDeleted => Some LocationDeleted
          end
      | _ => Some s
      end
  end.

Fixpoint lifecycle (s : DatasetState) (tr : list (Event E)) : option DatasetState :=
  match tr with
  | [] => Some s
  | e :: tr' =>
      match step s e with
      | Some s' => lifecycle s' tr'
      | None => None
      end
  end.

Definition in_order (tr : list (Event E)) : bool :=
  match lifecycle Unmaterialized tr with
  | Some _ => true
  | None => false
  end.

Definition call_of (e : Event E) : AnyCall :=
  match e with
  | Ev c _ => Any c
  end.

End TraceProperties.

(** ** Further properties of traces *)

Section MoreTraceProperties.

Context {E : Type}.

(** What a call answered, when it returned. *)
Definition answer {X : Type} (r : Outcome E X) : option X :=
  match r with
  | Returned x => Some x
  | Raised _ => None
  end.

(** The dataset is threaded through the workflow: [checkpoint] is called on
    the dataset [createDataFrame] returned ([built]), and the dataset that
    is inspected and shown is the one [checkpoint] returned
    ([checkpointed]), the value [df] is rebound to. *)
Fixpoint dataset_threaded (built checkpointed : option DataFrame) (tr : list (Event E))
  : Prop :=
  match tr with
  | [] => True
  | Ev c r :: tr' =>
      match c in Call X return Outcome E X -> Prop with
      | createDataFrame _ _ => fun r => dataset_threaded (answer r) checkpointed tr'
      | checkpoint d _ =>
          fun r => built = Some d /\ dataset_threaded built (answer r) tr'
      | rdd_isCheckpointed d =>
          fun _ => checkpointed = Some d /\ dataset_threaded built checkpointed tr'
      | rdd_getCheckpointFile d =>
          fun _ => checkpointed = Some d /\ dataset_threaded built checkpointed tr'
      | show d _ _ =>
          fun _ => checkpointed = Some d /\ dataset_threaded built checkpointed tr'
      | _ => fun _ => dataset_threaded built checkpointed tr'
      end r
  end.

(** The line the workflow prints about an answer of the engine. *)
Definition report {X : Type} (c : Call X) : Outcome E X -> option string :=
  match c in Call X return Outcome E X -> option string with
  | rdd_isCheckpointed _ =>
      fun r =>
        match r with
        | Returned b =>
            Some (format "Check whether dataframe is checkpointed:{0}" (str_bool b))
        | Raised _ => None
        end
  | rdd_getCheckpointFile _ =>
      fun r =>
        match r with
        | Returned o =>
            Some (format "Get the name of the file to which this RDD was checkpointed:{0}"
                         (str_optional o))
        | Raised _ => None
        end
  | _ => fun _ => None
  end.

(** Every answer to [isCheckpointed] and [getCheckpointFile] is printed
    by the very next call. *)
Fixpoint answers_reported (tr : list (Event E)) : Prop :=
  match tr with
  | [] => True
  | Ev c r :: tr' =>
      match report c r with
      | Some line => head (map call_of tr') = Some (Any (print line))
      | None => True
      end /\ answers_reported tr'
  end.

(** The lines around a delete of a path. *)
Definition delete_lines {X : Type} (c : Call X) : option (string * string) :=
  match c with
  | fs_delete p _ =>
      Some (format "Deleting Checkpoint location=({0}) - STARTED " p,
            format "Deleting Checkpoint location=({0}) - DONE " p)
  | _ => None
  end.

(** Every delete comes right after the STARTED line of its path, and a
    delete that returned, whatever it answered, is followed at once by the
    DONE line of its path. [prev] is the call before the trace. *)
Fixpoint delete_announced (prev : option AnyCall) (tr : list (Event E)) : Prop :=
  match tr with
  | [] => True
  | Ev c r :: tr' =>
      match delete_lines c with
      | Some (started, done) =>
          prev = Some (Any (print started)) /\
          if returned r then head (map call_of tr') = Some (Any (print done)) else True
      | None => True
      end /\ delete_announced (Some (Any c)) tr'
  end.

(** The existence check returned false. *)
Definition answered_false {X : Type} (c : Call X) : Outcome E X -> bool :=
  match c in Call X return Outcome E X -> bool with
  | fs_exists _ => fun r => match r with Returned b => negb b | Raised _ => false end
  | _ => fun _ => false
  end.

(** An existence check that answers false is the last call of the run, and
    the run returns. *)
Fixpoint quiet_when_missing {A : Type} (o : Outcome E A) (tr : list (Event E)) : Prop :=
  match tr with
  | [] => True
  | Ev c r :: tr' =>
      (if answered_false c r then tr' = [] /\ returned o = true else True) /\
      quiet_when_missing o tr'
  end.

Definition is_build (e : Event E) : bool :=
  match e with
  | Ev c _ => match c with createDataFrame _ _ => true | _ => false end
  end.

Definition is_configure (e : Event E) : bool :=
  match e with
  | Ev c _ => match c with setCheckpointDir _ => true | _ => false end
  end.

Definition is_checkpoint (e : Event E) : bool :=
  match e with
  | Ev c _ => match c with checkpoint _ _ => true | _ => false end
  end.

Definition is_exists (e : Event E) : bool :=
  match e with
  | Ev c _ => match c with fs_exists _ => true | _ => false end
  end.

Definition is_delete (e : Event E) : bool :=
  match e with
  | Ev c _ => match c with fs_delete _ _ => true | _ => false end
  end.

(** A call on the Hadoop file system. *)
Definition is_fs_call (e : Event E) : bool :=
  match e with
  | Ev c _ =>
      match c with
      | FileSystem_get | fs_exists _ | fs_delete _ _ => true
      | _ => false
      end
  end.

(** The file system is called only after [show] has returned. *)
Fixpoint fs_after_show (shown : bool) (tr : list (Event E)) : bool :=
  match tr with
  | [] => true
  | Ev c r :: tr' =>
      match c with
      | show _ _ _ => fs_after_show (shown || returned r) tr'
      | FileSystem_get | fs_exists _ | fs_delete _ _ => shown && fs_after_show shown tr'
      | _ => fs_after_show shown tr'
      end
  end.

(** The call returned. *)
Definition returned_event (e : Event E) : bool :=
  match e with
  | Ev _ r => returned r
  end.

(** The call hands the file system no path but [path]. *)
Definition only_path (path : string) (e : Event E) : bool :=
  match e with
  | Ev c _ =>
      match c with
      | fs_exists p | fs_delete p _ => bool_decide (p = path)
      | _ => true
      end
  end.

(** The call is a [show] that returned. *)
Definition show_returned (e : Event E) : bool :=
  match e with
  | Ev c r => match c with show _ _ _ => returned r | _ => false end
  end.

End MoreTraceProperties.

(** ** A storage client that reports a rejected delete through its result *)

(** Modelled from the spec: the file system's delete as the external
    interface gives it, [(path, recursive) -> success/failure], with the
    failure in the result: a delete that storage rejects answers false, does
    not raise, and leaves storage as it is.  Otherwise it is
    [engine_delete]. *)
Definition engine_delete_reporting (path : string) (recursive : bool) (w : World)
  : Outcome EngineError bool * World :=
  if deletable path w then engine_delete path recursive w else (Returned false, w).

(** The reference engine with that delete. *)
Definition reporting_engine (part_name : nat -> string) : Handler World EngineError :=
  fun X c =>
    match c in Call X return World -> Outcome EngineError X * World with
    | fs_delete p r => engine_delete_reporting p r
    | c0 => spark_engine part_name _ c0
    end.

(** * Proofs *)

(** ** Tactics *)

Ltac notebook :=
  unfold create_checkpoint_ex, create_dataframe_ex, delete_hdfs_directory, call.

(* One call of an arbitrary handler: it returned or it raised. *)
Ltac run_call h :=
  match goal with
  | |- context [h ?X ?c ?w] => destruct (h X c w) as [[? | ?] ?]
  end.

Ltac run_all h :=
  cbn;
  repeat (first [ run_call h
                | match goal with
                  | |- context [if ?b then _ else _] => is_var b; destruct b
                  end ];
          cbn).

Ltac engine_unfold :=
  cbn;
  repeat (progress (unfold engine_delete, engine_checkpoint, engine_exists,
                      writable, deletable, location_exists in *; cbn)).

(** ** Running programs *)

Lemma run_uncaught {W E A : Type} (h : Handler W E) (p : Prog A) (w : W) :
  uncaught (outcome (run h p w)) (trace (run h p w)).
Proof.
  revert w. induction p as [a | X c k IH]; intros w; simpl.
  - reflexivity.
  - destruct (h X c w) as [[x | e] w']; simpl.
    + specialize (IH x w'). destruct (run h (k x) w') as [[o w''] tr]. exact IH.
    + split; reflexivity.
Qed.

(** ** The life of the dataset never goes back *)

Lemma step_monotone {E : Type} (s s' : DatasetState) (e : Event E) :
  step s e = Some s' -> (rank s <= rank s')%nat.
Proof.
  destruct e as [X c r]. destruct c, s; simpl; intros [= <-]; simpl;
    try match goal with |- context [if ?b then _ else _] => destruct b end;
    simpl; lia.
Qed.

Lemma lifecycle_monotone {E : Type} (tr : list (Event E)) (s s' : DatasetState) :
  lifecycle s tr = Some s' -> (rank s <= rank s')%nat.
Proof.
  revert s. induction tr as [| e tr IH]; intros s; simpl.
  - intros [= <-]. lia.
  - destruct (step s e) as [s1 |] eqn:Hstep; [| discriminate].
    intros Hl. apply step_monotone in Hstep. apply IH in Hl. lia.
Qed.

(** ** Paths *)

Lemma append_cons (c : ascii) (s t : string) : String c s +:+ t = String c (s +:+ t).
Proof. reflexivity. Qed.

Lemma prefix_append (s t : string) : String.prefix s (s +:+ t) = true.
Proof.
  induction s as [| c s IH].
  - destruct t; reflexivity.
  - rewrite append_cons. simpl. rewrite IH.
    destruct (Ascii.ascii_dec c c); [reflexivity | contradiction].
Qed.

Lemma append_assoc (s t u : string) : (s +:+ t) +:+ u = s +:+ (t +:+ u).
Proof.
  induction s as [| c s IH]; [reflexivity |].
  rewrite !append_cons. f_equal. exact IH.
Qed.

Lemma under_file (dir name : string) : under dir (dir +:+ "/" +:+ name) = true.
Proof.
  unfold under. rewrite <- append_assoc, prefix_append. apply orb_true_r.
Qed.

Lemma under_self (dir : string) : under dir dir = true.
Proof. unfold under. now rewrite String.eqb_refl. Qed.

(** ** The file system of the reference engine *)

Lemma removed_tree_gone (m : gmap string Node) (dir path : string) :
  under dir path = true ->
  filter (fun kv : string * Node => under dir kv.1 = false) m !! path = None.
Proof.
  intros Hu. apply map_lookup_filter_None. right. intros x _. simpl. congruence.
Qed.

(** ** What the notebook asks of its collaborators, whatever they answer *)

(** C8. [create_dataframe_ex] (the spec's [build_sample_dataset]) depends on
    nothing but the session: whatever the session's state and behaviour, it
    makes one call, [createDataFrame] on the 23-row literal with the columns
    [id], [name], [age] (the spec's identifier, name, age) in that order; on
    the reference engine it always returns that dataset, not checkpointed,
    and leaves the session as it was. *)
Theorem sample_dataset_fixed :
  (forall (W E : Type) (h : Handler W E) (w : W),
      map call_of (trace (run h create_dataframe_ex w))
      = [Any (createDataFrame data headers)]) /\
  (forall (part_name : nat -> string) (w : World),
      outcome (run (spark_engine part_name) create_dataframe_ex w)
      = Returned (mkDataFrame headers data None) /\
      final (run (spark_engine part_name) create_dataframe_ex w) = w) /\
  headers = ["id"; "name"; "age"] /\
  length data = 23%nat /\
  map (fun r : Row => r.1.1) data = map Z.of_nat (seq 1 23).
Proof.
  split; [| split; [| repeat split]].
  - intros W E h w. notebook. cbn. run_call h; reflexivity.
  - intros part_name w. split; reflexivity.
Qed.

(** C7. Whatever the collaborators answer, every call of the file system's
    delete made by the workflow, and by [delete_hdfs_directory] on any path,
    passes [recursive = True]. *)
Theorem delete_always_recursive {W E : Type} (h : Handler W E) (w : W)
    (prefix path : string) :
  forallb recursive_delete (trace (run h (create_checkpoint_ex prefix) w)) = true /\
  forallb recursive_delete (trace (run h (delete_hdfs_directory path) w)) = true.
Proof.
  split; notebook; run_all h; reflexivity.
Qed.

(** C6. Whatever the collaborators answer and whatever [location_prefix]
    is, the path [delete_hdfs_directory] hands to the file system (to its
    existence check and to its delete) is the path handed to
    [setCheckpointDir] before. *)
Theorem deletion_path_is_configured_path {W E : Type} (h : Handler W E) (w : W)
    (prefix : string) :
  deletes_configured_path None (trace (run h (create_checkpoint_ex prefix) w)) = true.
Proof.
  notebook; run_all h; rewrite ?bool_decide_eq_true_2 by reflexivity; reflexivity.
Qed.

(** Whatever the collaborators answer, the calls of the workflow move its
    dataset along Unmaterialized, Checkpointed, LocationDeleted and never
    out of that order. *)
Lemma workflow_in_order {W E : Type} (h : Handler W E) (w : W) (prefix : string) :
  in_order (trace (run h (create_checkpoint_ex prefix) w)) = true.
Proof.
  notebook; run_all h; try reflexivity.
  all: match goal with b : bool |- _ => destruct b; reflexivity end.
Qed.

Lemma workflow_configures_first {W E : Type} (h : Handler W E) (w : W) (prefix : string) :
  configured_before_checkpoint false (trace (run h (create_checkpoint_ex prefix) w)) = true.
Proof.
  notebook; run_all h; reflexivity.
Qed.

(** ** The reference engine *)

Lemma is_Some_checkpoint_dir (m : gmap string Node) (dir file : string) (x : Node) :
  is_Some (<[file := x]> (<[dir := Directory]> m) !! dir).
Proof.
  destruct (decide (file = dir)) as [-> | Hne].
  - rewrite lookup_insert_eq. eauto.
  - rewrite lookup_insert_ne by assumption. rewrite lookup_insert_eq. eauto.
Qed.

(** A run in which the checkpoint location is writable and may be deleted:
    every call returns, in the order of [successful_trace], and storage ends
    as it began plus the checkpoint, minus the tree at the location. *)
Lemma workflow_succeeds (part_name : nat -> string) (w : World) (prefix : string) :
  writable (checkpoint_dir prefix) w = true ->
  deletable (checkpoint_dir prefix) w = true ->
  let r := run (spark_engine part_name) (create_checkpoint_ex prefix) w in
  outcome r = Returned tt /\
  trace r = successful_trace part_name prefix w /\
  storage (final r)
  = filter (fun kv : string * Node => under (checkpoint_dir prefix) kv.1 = false)
      (<[checkpoint_dir prefix +:+ "/" +:+ part_name (rdd_counter w)
         := CheckpointData headers data]>
         (<[checkpoint_dir prefix := Directory]> (storage w))).
Proof.
  intros Hw Hd r. subst r. notebook.
  repeat (engine_unfold;
          first [ rewrite Hw | rewrite Hd
                | rewrite (bool_decide_eq_true_2 _ (is_Some_checkpoint_dir _ _ _ _)) ]).
  repeat split.
Qed.

(** The delete is reached: the statements about the calls of delete are
    about runs that make one. *)
Lemma workflow_reaches_delete (part_name : nat -> string) (w : World) (prefix : string) :
  writable (checkpoint_dir prefix) w = true ->
  deletable (checkpoint_dir prefix) w = true ->
  In (Ev (fs_delete (checkpoint_dir prefix) true) (Returned true))
     (trace (run (spark_engine part_name) (create_checkpoint_ex prefix) w)).
Proof.
  intros Hw Hd. destruct (workflow_succeeds part_name w prefix Hw Hd) as (_ & -> & _).
  simpl. do 15 right. left. reflexivity.
Qed.

(** The boolean [fs.delete] returns is not looked at: after a delete that
    answers false the notebook prints its DONE line and returns. *)
Lemma delete_answer_discarded :
  outcome (run answering_false notebook_main tt) = Returned tt /\
  map call_of (drop 15 (trace (run answering_false notebook_main tt)))
  = [ Any (fs_delete "my_local_check_point" true);
      Any (print "Deleting Checkpoint location=(my_local_check_point) - DONE ") ].
Proof. split; reflexivity. Qed.

Lemma workflow_stops_unwritable (part_name : nat -> string) (w : World) (prefix : string) :
  writable (checkpoint_dir prefix) w = false ->
  let r := run (spark_engine part_name) (create_checkpoint_ex prefix) w in
  outcome r = Raised (NotWritable (checkpoint_dir prefix)) /\
  storage (final r) = storage w /\
  map call_of (trace r)
  = [ Any (createDataFrame data headers);
      Any (print "Creating checkpoint - example");
      Any (print (format "Set checkpoint directory={0}" (checkpoint_dir prefix)));
      Any (setCheckpointDir (checkpoint_dir prefix));
      Any (checkpoint (mkDataFrame headers data None) true) ].
Proof.
  intros Hw r. subst r. notebook. engine_unfold. rewrite Hw. engine_unfold.
  repeat split.
Qed.

Lemma workflow_stops_undeletable (part_name : nat -> string) (w : World) (prefix : string) :
  writable (checkpoint_dir prefix) w = true ->
  deletable (checkpoint_dir prefix) w = false ->
  let r := run (spark_engine part_name) (create_checkpoint_ex prefix) w in
  outcome r = Raised (DeleteRejected (checkpoint_dir prefix)) /\
  last (map call_of (trace r)) = Some (Any (fs_delete (checkpoint_dir prefix) true)) /\
  trace r
  = (take 15 (successful_trace part_name prefix w)
     ++ [Ev (fs_delete (checkpoint_dir prefix) true)
            (Raised (DeleteRejected (checkpoint_dir prefix)))])%list.
Proof.
  intros Hw Hd r. subst r. notebook.
  repeat (engine_unfold;
          first [ rewrite Hw | rewrite Hd
                | rewrite (bool_decide_eq_true_2 _ (is_Some_checkpoint_dir _ _ _ _)) ]).
  repeat split.
Qed.

(** With a writable location the run gets through the checkpoint and the
    display, whatever happens to the delete. *)
Lemma workflow_checkpoints (part_name : nat -> string) (w : World) (prefix : string) :
  writable (checkpoint_dir prefix) w = true ->
  exists rest,
    trace (run (spark_engine part_name) (create_checkpoint_ex prefix) w)
    = (take 12 (successful_trace part_name prefix w) ++ rest)%list.
Proof.
  intros Hw. destruct (deletable (checkpoint_dir prefix) w) eqn:Hd.
  - destruct (workflow_succeeds part_name w prefix Hw Hd) as (_ & -> & _).
    exists (drop 12 (successful_trace part_name prefix w)). reflexivity.
  - destruct (workflow_stops_undeletable part_name w prefix Hw Hd) as (_ & _ & ->).
    eexists. reflexivity.
Qed.

(** What a successful [checkpoint] call did. *)
Lemma checkpoint_returned (part_name : nat -> string) (df df' : DataFrame) (eager : bool)
    (w : World) :
  (engine_checkpoint part_name df eager w).1 = Returned df' ->
  exists dir,
    checkpointDir w = Some dir /\
    writable dir w = true /\
    df' = mkDataFrame (columns df) (rows df)
            (Some (dir +:+ "/" +:+ part_name (rdd_counter w))) /\
    storage (engine_checkpoint part_name df eager w).2
    = <[dir +:+ "/" +:+ part_name (rdd_counter w) := CheckpointData (columns df) (rows df)]>
        (<[dir := Directory]> (storage w)).
Proof.
  unfold engine_checkpoint. destruct (checkpointDir w) as [dir |]; [| discriminate].
  destruct (writable dir w) eqn:Hw; [| discriminate].
  simpl. intros [= <-]. exists dir. repeat split; assumption.
Qed.

(** C1. On the reference engine, for the dataset [create_dataframe_ex]
    builds and every state of the engine in which checkpointing it succeeds:
    the returned dataset names a checkpoint file, and what is read back from
    that file is row for row the original: its 23 records, in their order,
    under the columns [id], [name], [age] (the spec's identifier, name,
    age). *)
Theorem checkpoint_round_trip (part_name : nat -> string) (w0 w : World)
    (df0 df' : DataFrame) :
  outcome (run (spark_engine part_name) create_dataframe_ex w0) = Returned df0 ->
  (engine_checkpoint part_name df0 true w).1 = Returned df' ->
  exists file,
    checkpointFile df' = Some file /\
    read_checkpoint file (engine_checkpoint part_name df0 true w).2
    = Some (columns df0, rows df0) /\
    columns df' = columns df0 /\
    rows df' = rows df0 /\
    columns df0 = ["id"; "name"; "age"] /\
    rows df0 = data /\
    length (rows df0) = 23%nat.
Proof.
  intros Hbuild Hck. cbn in Hbuild. injection Hbuild as <-.
  destruct (checkpoint_returned _ _ _ _ _ Hck) as (dir & _ & _ & -> & Hst).
  eexists. split; [reflexivity |]. split; [| repeat split].
  unfold read_checkpoint. rewrite Hst, lookup_insert_eq. reflexivity.
Qed.

Lemma checkpoint_round_trip_witness :
  exists file,
    checkpointFile (mkDataFrame headers data (Some "ckpt_test/rdd-0")) = Some file /\
    read_checkpoint file
      (engine_checkpoint rdd_name (mkDataFrame headers data None) true configured_world).2
    = Some (headers, data).
Proof.
  destruct (checkpoint_round_trip rdd_name fresh_world configured_world
              (mkDataFrame headers data None)
              (mkDataFrame headers data (Some "ckpt_test/rdd-0"))
              eq_refl eq_refl) as (file & Hf & Hr & _).
  exists file. split; [exact Hf | exact Hr].
Defined.

(** C3. On the reference engine, a dataset as [createDataFrame] builds it
    is not checkpointed, whatever the state of the session (in particular
    right after a location was configured), and the dataset a successful
    [checkpoint] call returns is.  So in a run of the workflow with a
    writable location, the dataset handed to [checkpoint] is not
    checkpointed and [df.rdd.isCheckpointed()] on the one it returns
    answers true. *)
Theorem is_checkpointed_before_after (part_name : nat -> string) :
  (forall (rows0 : list Row) (schema : list string) (w w1 : World) (df : DataFrame),
      (engine_createDataFrame rows0 schema w).1 = Returned df ->
      engine_isCheckpointed df w1 = (Returned false, w1)) /\
  (forall (df df' : DataFrame) (eager : bool) (w w1 : World),
      (engine_checkpoint part_name df eager w).1 = Returned df' ->
      engine_isCheckpointed df' w1 = (Returned true, w1)) /\
  (forall (w : World) (prefix : string),
      writable (checkpoint_dir prefix) w = true ->
      let r := run (spark_engine part_name) (create_checkpoint_ex prefix) w in
      exists df0 df : DataFrame,
        In (Ev (checkpoint df0 true) (Returned df)) (trace r) /\
        engine_isCheckpointed df0 w = (Returned false, w) /\
        In (Ev (rdd_isCheckpointed df) (Returned true)) (trace r)).
Proof.
  split; [| split].
  - intros rows0 schema w w1 df [= <-]. reflexivity.
  - intros df df' eager w w1 Hck.
    destruct (checkpoint_returned _ _ _ _ _ Hck) as (dir & _ & _ & -> & _).
    reflexivity.
  - intros w prefix Hw r. subst r.
    destruct (workflow_checkpoints part_name w prefix Hw) as (rest & ->).
    eexists (mkDataFrame headers data None), _. split; [| split].
    + apply in_or_app. left. simpl. do 4 right. left. reflexivity.
    + reflexivity.
    + apply in_or_app. left. simpl. do 5 right. left. reflexivity.
Qed.

Lemma is_checkpointed_before_after_witness :
  engine_isCheckpointed (mkDataFrame headers data None)
    (engine_setCheckpointDir "ckpt_test" fresh_world).2
  = (Returned false, (engine_setCheckpointDir "ckpt_test" fresh_world).2) /\
  engine_isCheckpointed (mkDataFrame headers data (Some "ckpt_test/rdd-0"))
    (engine_checkpoint rdd_name (mkDataFrame headers data None) true configured_world).2
  = (Returned true,
     (engine_checkpoint rdd_name (mkDataFrame headers data None) true configured_world).2) /\
  exists df0 df : DataFrame,
    In (Ev (checkpoint df0 true) (Returned df))
       (trace (run (spark_engine rdd_name) notebook_main fresh_world)) /\
    engine_isCheckpointed df0 fresh_world = (Returned false, fresh_world) /\
    In (Ev (rdd_isCheckpointed df) (Returned true))
       (trace (run (spark_engine rdd_name) notebook_main fresh_world)).
Proof.
  destruct (is_checkpointed_before_after rdd_name) as (Hbefore & Hafter & Hrun).
  split; [| split].
  - apply (Hbefore data headers fresh_world). reflexivity.
  - apply (Hafter (mkDataFrame headers data None) _ true configured_world).
    reflexivity.
  - apply (Hrun fresh_world location_prefix). reflexivity.
Defined.

(** C4. On the reference engine, [setCheckpointDir] makes its path the
    configured location, and the dataset a successful [checkpoint] call
    returns names a file whose path has the configured location as a
    prefix.  So in a run of the workflow with a writable location,
    [df.rdd.getCheckpointFile()] answers a path that starts with the path
    handed to [setCheckpointDir]. *)
Theorem checkpoint_file_prefixed (part_name : nat -> string) :
  (forall (dir : string) (w : World),
      checkpointDir (engine_setCheckpointDir dir w).2 = Some dir) /\
  (forall (df df' : DataFrame) (eager : bool) (w w1 : World),
      (engine_checkpoint part_name df eager w).1 = Returned df' ->
      exists dir file,
        checkpointDir w = Some dir /\
        engine_getCheckpointFile df' w1 = (Returned (Some file), w1) /\
        String.prefix dir file = true) /\
  (forall (w : World) (prefix : string),
      writable (checkpoint_dir prefix) w = true ->
      let r := run (spark_engine part_name) (create_checkpoint_ex prefix) w in
      exists (df : DataFrame) (file : string),
        In (Ev (setCheckpointDir (checkpoint_dir prefix)) (Returned tt)) (trace r) /\
        In (Ev (rdd_getCheckpointFile df) (Returned (Some file))) (trace r) /\
        String.prefix (checkpoint_dir prefix) file = true).
Proof.
  split; [reflexivity | split].
  - intros df df' eager w w1 Hck.
    destruct (checkpoint_returned _ _ _ _ _ Hck) as (dir & Hdir & _ & -> & _).
    exists dir. eexists. split; [exact Hdir |]. split; [reflexivity |].
    apply prefix_append.
  - intros w prefix Hw r. subst r.
    destruct (workflow_checkpoints part_name w prefix Hw) as (rest & ->).
    eexists _, _. split; [| split].
    + apply in_or_app. left. simpl. do 3 right. left. reflexivity.
    + apply in_or_app. left. simpl. do 7 right. left. reflexivity.
    + apply prefix_append.
Qed.

Lemma checkpoint_file_prefixed_witness :
  (exists dir file,
      checkpointDir (engine_setCheckpointDir "ckpt_test" fresh_world).2 = Some dir /\
      engine_getCheckpointFile (mkDataFrame headers data (Some "ckpt_test/rdd-0"))
        fresh_world
      = (Returned (Some file), fresh_world) /\
      String.prefix dir file = true) /\
  (exists (df : DataFrame) (file : string),
      In (Ev (setCheckpointDir "my_local_check_point") (Returned tt))
         (trace (run (spark_engine rdd_name) notebook_main fresh_world)) /\
      In (Ev (rdd_getCheckpointFile df) (Returned (Some file)))
         (trace (run (spark_engine rdd_name) notebook_main fresh_world)) /\
      String.prefix "my_local_check_point" file = true).
Proof.
  destruct (checkpoint_file_prefixed rdd_name) as (_ & Hfile & Hrun).
  split.
  - apply (Hfile (mkDataFrame headers data None) _ true). reflexivity.
  - apply (Hrun fresh_world location_prefix). reflexivity.
Defined.

(** A delete that storage rejects and reports by answering false: the
    workflow goes on to its DONE line and returns, with the location and the
    checkpoint file still in storage. *)
Lemma refused_delete_returns (part_name : nat -> string) (w : World) (prefix : string) :
  writable (checkpoint_dir prefix) w = true ->
  deletable (checkpoint_dir prefix) w = false ->
  let r := run (reporting_engine part_name) (create_checkpoint_ex prefix) w in
  outcome r = Returned tt /\
  drop 15 (trace r)
  = [ Ev (fs_delete (checkpoint_dir prefix) true) (Returned false);
      Ev (print (format "Deleting Checkpoint location=({0}) - DONE "
                        (checkpoint_dir prefix))) (Returned tt) ] /\
  last (stdout (final r))
  = Some (Line (format "Deleting Checkpoint location=({0}) - DONE "
                       (checkpoint_dir prefix))) /\
  location_exists (checkpoint_dir prefix) (final r) = true /\
  read_checkpoint (checkpoint_dir prefix +:+ "/" +:+ part_name (rdd_counter w)) (final r)
  = Some (headers, data).
Proof.
  intros Hw Hd r. subst r. notebook.
  repeat (engine_unfold; try unfold engine_delete_reporting; engine_unfold;
          first [ rewrite Hw | rewrite Hd
                | rewrite (bool_decide_eq_true_2 _ (is_Some_checkpoint_dir _ _ _ _)) ]).
  engine_unfold. split; [reflexivity |]. split; [reflexivity |].
  split; [apply last_snoc |]. split; [reflexivity |].
  unfold read_checkpoint. cbn. now rewrite lookup_insert_eq.
Qed.

(** C5. The claim fails on the code at a delete that is rejected and says
    so through its result.  The notebook's location is writable and storage
    refuses to delete it ([locked_world]).  When the refusal is raised, it
    propagates: the run ends in that exception.  When the refusal is the
    answer false of [fs.delete], [delete_hdfs_directory] drops it: the
    workflow prints its DONE line and returns normally, and the location and
    the checkpoint file are still in storage. *)
Theorem refused_delete_is_swallowed :
  outcome (run (spark_engine rdd_name) notebook_main locked_world)
  = Raised (DeleteRejected "my_local_check_point") /\
  let r := run (reporting_engine rdd_name) notebook_main locked_world in
  outcome r = Returned tt /\
  drop 15 (trace r)
  = [ Ev (fs_delete "my_local_check_point" true) (Returned false);
      Ev (print "Deleting Checkpoint location=(my_local_check_point) - DONE ")
         (Returned tt) ] /\
  last (stdout (final r))
  = Some (Line "Deleting Checkpoint location=(my_local_check_point) - DONE ") /\
  location_exists "my_local_check_point" (final r) = true /\
  read_checkpoint "my_local_check_point/rdd-0" (final r) = Some (headers, data).
Proof.
  split.
  - apply (workflow_stops_undeletable rdd_name locked_world location_prefix);
      reflexivity.
  - apply (refused_delete_returns rdd_name locked_world location_prefix); reflexivity.
Qed.

(** C10. Whatever the collaborators answer, the workflow calls
    [checkpoint] only after [setCheckpointDir] has returned; on the reference
    engine no run of the workflow, from any state of the session, ends in
    the error of a missing checkpoint location. *)
Theorem checkpoint_dir_configured_first :
  (forall (W E : Type) (h : Handler W E) (w : W) (prefix : string),
      configured_before_checkpoint false (trace (run h (create_checkpoint_ex prefix) w))
      = true) /\
  (forall (part_name : nat -> string) (w : World) (prefix : string),
      dir_not_set (outcome (run (spark_engine part_name) (create_checkpoint_ex prefix) w))
      = false).
Proof.
  split.
  - intros W E h w prefix. apply workflow_configures_first.
  - intros part_name w prefix.
    destruct (writable (checkpoint_dir prefix) w) eqn:Hw.
    + destruct (deletable (checkpoint_dir prefix) w) eqn:Hd.
      * destruct (workflow_succeeds part_name w prefix Hw Hd) as (-> & _). reflexivity.
      * destruct (workflow_stops_undeletable part_name w prefix Hw Hd) as (-> & _).
        reflexivity.
    + destruct (workflow_stops_unwritable part_name w prefix Hw) as (-> & _). reflexivity.
Qed.

(** C9. Whatever the collaborators answer, the calls of the workflow keep
    its dataset in the order Unmaterialized, Checkpointed, LocationDeleted:
    no delete before the checkpoint has returned, and nothing built or
    checkpointed after it.  On the reference engine a run in which the
    location is writable and may be deleted ends in LocationDeleted, and the
    dataset the workflow holds still has its 23 rows while the checkpoint
    file it names, like the location, is no longer in storage. *)
Theorem lifecycle_order :
  (forall (W E : Type) (h : Handler W E) (w : W) (prefix : string),
      in_order (trace (run h (create_checkpoint_ex prefix) w)) = true) /\
  (forall (part_name : nat -> string) (w : World) (prefix : string),
      writable (checkpoint_dir prefix) w = true ->
      deletable (checkpoint_dir prefix) w = true ->
      let r := run (spark_engine part_name) (create_checkpoint_ex prefix) w in
      outcome r = Returned tt /\
      lifecycle Unmaterialized (trace r) = Some LocationDeleted /\
      exists (df : DataFrame) (file : string),
        In (Ev (show df 25 false) (Returned tt)) (trace r) /\
        rows df = data /\
        checkpointFile df = Some file /\
        location_exists file (final r) = false /\
        location_exists (checkpoint_dir prefix) (final r) = false).
Proof.
  split.
  - intros W E h w prefix. apply workflow_in_order.
  - intros part_name w prefix Hw Hd r.
    destruct (workflow_succeeds part_name w prefix Hw Hd) as (Ho & Ht & Hs).
    fold r in Ho, Ht, Hs. rewrite Ho, Ht. split; [reflexivity |]. split; [reflexivity |].
    eexists (mkDataFrame headers data (Some _)), _.
    split; [simpl; do 10 right; left; reflexivity |].
    split; [reflexivity |]. split; [reflexivity |].
    unfold location_exists. rewrite Hs.
    rewrite !removed_tree_gone by (apply under_file || apply under_self).
    split; apply bool_decide_eq_false; intros [x Hx]; discriminate.
Qed.

Lemma lifecycle_order_witness :
  outcome (run (spark_engine rdd_name) notebook_main fresh_world) = Returned tt /\
  lifecycle Unmaterialized (trace (run (spark_engine rdd_name) notebook_main fresh_world))
  = Some LocationDeleted.
Proof.
  destruct (proj2 lifecycle_order rdd_name fresh_world location_prefix eq_refl eq_refl)
    as (Ho & Hl & _).
  split; [exact Ho | exact Hl].
Defined.

(** ** Deleting a location on the reference engine *)

Lemma delete_missing (part_name : nat -> string) (w : World) (path : string) :
  location_exists path w = false ->
  run (spark_engine part_name) (delete_hdfs_directory path) w
  = (Returned tt, w,
     [Ev FileSystem_get (Returned tt); Ev (fs_exists path) (Returned false)]).
Proof.
  intros Hex. notebook. engine_unfold. rewrite Hex. reflexivity.
Qed.

Lemma delete_existing (part_name : nat -> string) (w : World) (path : string) :
  location_exists path w = true ->
  deletable path w = true ->
  let r := run (spark_engine part_name) (delete_hdfs_directory path) w in
  outcome r = Returned tt /\
  location_exists path (final r) = false /\
  In (Ev (fs_delete path true) (Returned true)) (trace r).
Proof.
  intros Hex Hd r. subst r. notebook.
  repeat (engine_unfold; first [rewrite Hex | rewrite Hd]).
  engine_unfold. split; [reflexivity |]. split; [| tauto].
  rewrite removed_tree_gone by apply under_self.
  apply bool_decide_eq_false. intros [x Hx]. discriminate.
Qed.

Lemma delete_rejected (part_name : nat -> string) (w : World) (path : string) :
  location_exists path w = true ->
  deletable path w = false ->
  outcome (run (spark_engine part_name) (delete_hdfs_directory path) w)
  = Raised (DeleteRejected path).
Proof.
  intros Hex Hd. notebook.
  repeat (engine_unfold; first [rewrite Hex | rewrite Hd]).
  reflexivity.
Qed.

(** C2. [delete_hdfs_directory] (the spec's [delete_location]), for every
    path.  Whatever the file system answers, it calls delete only after the
    existence check answered true.  On the reference engine, in every state
    of storage: on a location that exists and that storage lets go it
    returns, and a following existence check answers false; on a location
    that does not exist it returns without calling delete and leaves storage
    and output as they were; and after a call that returned, a second call
    on the same path returns too and changes nothing. *)
Theorem delete_location_idempotent (part_name : nat -> string) (w : World)
    (path : string) :
  let delete := run (spark_engine part_name) (delete_hdfs_directory path) in
  (forall (W E : Type) (h : Handler W E) (w0 : W),
      delete_after_exists false (trace (run h (delete_hdfs_directory path) w0)) = true) /\
  (location_exists path w = true ->
   deletable path w = true ->
   outcome (delete w) = Returned tt /\
   engine_exists path (final (delete w)) = (Returned false, final (delete w))) /\
  (location_exists path w = false ->
   outcome (delete w) = Returned tt /\
   final (delete w) = w /\
   map call_of (trace (delete w)) = [Any FileSystem_get; Any (fs_exists path)]) /\
  (outcome (delete w) = Returned tt ->
   outcome (delete (final (delete w))) = Returned tt /\
   final (delete (final (delete w))) = final (delete w)).
Proof.
  intros delete. subst delete. split; [| split; [| split]].
  - intros W E h w0. notebook. run_all h; reflexivity.
  - intros Hex Hd. destruct (delete_existing part_name w path Hex Hd) as (Ho & Hgone & _).
    split; [exact Ho |]. unfold engine_exists. now rewrite Hgone.
  - intros Hex. rewrite (delete_missing part_name w path Hex). repeat split.
  - intros Hret.
    assert (Hgone : location_exists path
                      (final (run (spark_engine part_name) (delete_hdfs_directory path) w))
                    = false).
    { destruct (location_exists path w) eqn:Hex.
      - destruct (deletable path w) eqn:Hd.
        + apply (delete_existing part_name w path Hex Hd).
        + rewrite (delete_rejected part_name w path Hex Hd) in Hret. discriminate.
      - rewrite (delete_missing part_name w path Hex). exact Hex. }
    rewrite (delete_missing part_name _ path Hgone). split; reflexivity.
Qed.

Lemma delete_location_idempotent_witness :
  engine_exists "ckpt_test"
    (final (run (spark_engine rdd_name) (delete_hdfs_directory "ckpt_test") stored_world))
  = (Returned false,
     final (run (spark_engine rdd_name) (delete_hdfs_directory "ckpt_test") stored_world)) /\
  final (run (spark_engine rdd_name) (delete_hdfs_directory "ckpt_test") fresh_world)
  = fresh_world /\
  outcome (run (spark_engine rdd_name) (delete_hdfs_directory "ckpt_test")
             (final (run (spark_engine rdd_name) (delete_hdfs_directory "ckpt_test")
                       stored_world)))
  = Returned tt.
Proof.
  destruct (delete_location_idempotent rdd_name stored_world "ckpt_test")
    as (_ & Hremoved & _ & Htwice).
  destruct (delete_location_idempotent rdd_name fresh_world "ckpt_test")
    as (_ & _ & Hmissing & _).
  split; [| split].
  - apply Hremoved; reflexivity.
  - apply Hmissing. reflexivity.
  - apply Htwice. reflexivity.
Defined.

(** * Further properties of the notebook's functions

    All of them hold whatever the collaborators answer. *)

(** The trace properties tell traces apart: inspecting the original
    dataset after the checkpoint, or deleting without the STARTED line, is
    not accepted. *)
Example inspecting_the_original_is_rejected :
  ~ dataset_threaded (E := unit) None None
      [ Ev (createDataFrame data headers) (Returned (mkDataFrame headers data None));
        Ev (checkpoint (mkDataFrame headers data None) true)
           (Returned (mkDataFrame headers data (Some "ckpt/rdd-0")));
        Ev (rdd_isCheckpointed (mkDataFrame headers data None)) (Returned false) ].
Proof. simpl. intros (_ & [=] & _). Qed.

Example unannounced_delete_is_rejected :
  ~ delete_announced (E := unit) None
      [ Ev FileSystem_get (Returned tt);
        Ev (fs_exists "ckpt") (Returned true);
        Ev (fs_delete "ckpt" true) (Returned true) ].
Proof. simpl. intros (_ & _ & ([=] & _) & _). Qed.

(** X1. In [create_checkpoint_ex] the dataset handed to [checkpoint] is the
    one [createDataFrame] returned, and the dataset that is inspected
    ([isCheckpointed], [getCheckpointFile]) and shown is the one
    [checkpoint] returned, never the original. *)
Theorem workflow_threads_dataset {W E : Type} (h : Handler W E) (w : W)
    (prefix : string) :
  dataset_threaded None None (trace (run h (create_checkpoint_ex prefix) w)).
Proof.
  notebook; run_all h; repeat split.
Qed.

(** X2. In [create_checkpoint_ex] every answer of the engine to
    [isCheckpointed] and to [getCheckpointFile] is printed by the next call,
    as Python formats it: [True] or [False], and the path or [None]. *)
Theorem workflow_reports_answers {W E : Type} (h : Handler W E) (w : W)
    (prefix : string) :
  answers_reported (trace (run h (create_checkpoint_ex prefix) w)).
Proof.
  notebook; run_all h; repeat split.
Qed.

(** X3. Every call of delete, in [delete_hdfs_directory] on any path and in
    the workflow, comes right after the STARTED line for its path; and once
    delete has returned, the DONE line for that path is printed next
    whatever boolean delete answered: the answer is not looked at. *)
Theorem delete_is_announced {W E : Type} (h : Handler W E) (w : W)
    (prefix path : string) :
  delete_announced None (trace (run h (delete_hdfs_directory path) w)) /\
  delete_announced None (trace (run h (create_checkpoint_ex prefix) w)).
Proof.
  split; notebook; run_all h; repeat split.
Qed.

(** X4. When the existence check answers false, it is the last call made:
    nothing is printed, nothing is deleted, and the function returns.  This
    holds for [delete_hdfs_directory] on any path and for the workflow, which
    then ends without a word about the location it did not find. *)
Theorem missing_location_is_silent {W E : Type} (h : Handler W E) (w : W)
    (prefix path : string) :
  quiet_when_missing (outcome (run h (delete_hdfs_directory path) w))
                     (trace (run h (delete_hdfs_directory path) w)) /\
  quiet_when_missing (outcome (run h (create_checkpoint_ex prefix) w))
                     (trace (run h (create_checkpoint_ex prefix) w)).
Proof.
  split; notebook; run_all h; repeat split.
Qed.

(** X5. No loop and no second try: a run of the workflow makes at most 17
    calls, and at most one each of [createDataFrame], [setCheckpointDir],
    [checkpoint], [exists] and [delete]; [delete_hdfs_directory] makes at
    most 5 calls, one [exists] and at most one [delete]. *)
Theorem calls_are_bounded {W E : Type} (h : Handler W E) (w : W)
    (prefix path : string) :
  let tr := trace (run h (create_checkpoint_ex prefix) w) in
  let tr_delete := trace (run h (delete_hdfs_directory path) w) in
  (length tr <= 17)%nat /\
  (length (List.filter is_build tr) <= 1)%nat /\
  (length (List.filter is_configure tr) <= 1)%nat /\
  (length (List.filter is_checkpoint tr) <= 1)%nat /\
  (length (List.filter is_exists tr) <= 1)%nat /\
  (length (List.filter is_delete tr) <= 1)%nat /\
  (length tr_delete <= 5)%nat /\
  (length (List.filter is_exists tr_delete) <= 1)%nat /\
  (length (List.filter is_delete tr_delete) <= 1)%nat.
Proof.
  intros tr tr_delete. subst tr tr_delete.
  repeat apply conj; notebook; run_all h; cbn; lia.
Qed.

(** X6. The workflow calls the file system ([FileSystem.get], [exists],
    [delete]) only after [show] has returned.  So a run in which [show] did
    not return, because it or an earlier call raised, makes no call on the
    file system and no delete: the workflow has no cleanup on failure. *)
Theorem file_system_only_after_show {W E : Type} (h : Handler W E) (w : W)
    (prefix : string) :
  let tr := trace (run h (create_checkpoint_ex prefix) w) in
  fs_after_show false tr = true /\
  implb (existsb is_fs_call tr) (existsb show_returned tr) = true /\
  implb (existsb is_delete tr) (existsb show_returned tr) = true.
Proof.
  intros tr. subst tr. repeat apply conj; notebook; run_all h; reflexivity.
Qed.

(** X7. [delete_hdfs_directory] hands the file system no path but its
    argument: the existence check and the delete are on [input_ckpt_path]. *)
Theorem delete_touches_only_its_path {W E : Type} (h : Handler W E) (w : W)
    (path : string) :
  forallb (only_path path) (trace (run h (delete_hdfs_directory path) w)) = true.
Proof.
  notebook; run_all h; rewrite ?bool_decide_eq_true_2 by reflexivity; reflexivity.
Qed.

(** X8. The workflow ends with [delete_hdfs_directory] on its checkpoint
    directory.  Either one of its first 12 calls raised, and then the run
    raised, made at most 12 calls and none on the file system; or they all
    returned, and then the rest of the run is a run of
    [delete_hdfs_directory (checkpoint_dir)] from the state reached: its
    calls, its final state, and its outcome, which is the outcome of the
    workflow. *)
Theorem workflow_ends_with_delete {W E : Type} (h : Handler W E) (w : W)
    (prefix : string) :
  let r := run h (create_checkpoint_ex prefix) w in
  (exists w' : W,
      let d := run h (delete_hdfs_directory (checkpoint_dir prefix)) w' in
      forallb returned_event (take 12 (trace r)) = true /\
      length (take 12 (trace r)) = 12%nat /\
      drop 12 (trace r) = trace d /\
      final r = final d /\
      outcome r = outcome d) \/
  ((length (trace r) <= 12)%nat /\
   returned (outcome r) = false /\
   existsb is_fs_call (trace r) = false).
Proof.
  intros r. subst r. unfold create_checkpoint_ex, create_dataframe_ex, call.
  remember (delete_hdfs_directory (checkpoint_dir prefix)) as del eqn:Hdel.
  cbn.
  do 12 (run_call h; cbn;
         [| right; repeat split; first [reflexivity | cbn; lia]]).
  left.
  match goal with
  | |- context [run h del ?w'] =>
      exists w'; destruct (run h del w') as [[o wf] tr]
  end.
  cbn. repeat split.
Qed.
